(** * referencing.jsonschema: dialect specifications for JSON Schema

    A shallow embedding of [referencing/jsonschema.py]: the identifier,
    sub-schema and anchor extraction functions of the six JSON Schema
    dialects, the catalog of dialects and its lookup function
    [specification_with], followed by the properties stated about them. *)

From Stdlib Require Import List String Ascii ZArith Bool Permutation Lia.
From Stdlib Require Import Floats.SpecFloat.
Import ListNotations.
Open Scope string_scope.

(** ** Python values *)

(** [typing.Any], as far as a parsed JSON document can populate it.  A [dict]
    is kept as the list of its items in the dictionary's own order, which is
    the order [.values()] and iteration follow; a dictionary holds a key at
    most once, and [dict_lookup] reads the first binding. *)
#[local] Set Warnings "-register-all".
Inductive Any : Type :=
| PNone
| PBool (b : bool)
| PInt (n : Z)
| PFloat (f : spec_float)
| PStr (s : string)
| PList (items : list Any)
| PDict (items : list (string * Any)).

Definition URI := string.

(** [ObjectSchema = Mapping[str, Any]] *)
Definition ObjectSchema := list (string * Any).

(** [Schema = Union[bool, ObjectSchema]] *)
Inductive Schema : Type :=
| SBool (b : bool)
| SObject (o : ObjectSchema).

(** ** Exceptions and results *)

(** The builtin exceptions the operations below can raise, and the one
    exception class the module declares ([UnknownDialect], with its [uri]
    attribute). *)
Inductive exn : Type :=
| TypeError
| AttributeError
| KeyError (key : string)
| UnknownDialect (uri : URI).

Inductive result (A : Type) : Type :=
| Ok (value : A)
| Raise (e : exn).
Arguments Ok {A} value.
Arguments Raise {A} e.

Definition bind {A B} (r : result A) (k : A -> result B) : result B :=
  match r with
  | Ok a => k a
  | Raise e => Raise e
  end.

Notation "x <- r ;; k" := (bind r (fun x => k))
  (at level 61, r at next level, right associativity).

(** What iterating an iterable to exhaustion shows: the items produced, in
    order, and the exception that ended the iteration, if one did.  A
    generator raises lazily, after the items it has already produced. *)
Record iteration (A : Type) : Type := Iteration {
  yielded : list A;
  raised : option exn
}.
Arguments Iteration {A} yielded raised.
Arguments yielded {A} _.
Arguments raised {A} _.

(** A generator that returns at once, and a list used as an iterable. *)
Definition gen_return {A} : iteration A := Iteration [] None.
Definition gen_of_list {A} (l : list A) : iteration A := Iteration l None.

(** [yield value] *)
Definition gen_yield {A} (value : A) : iteration A := Iteration [value] None.

(** [yield from] an iterable already run to its list of items. *)
Definition gen_yield_from {A} (items : list A) : iteration A :=
  Iteration items None.

(** An expression evaluated inside a generator body: its exception, if it
    raises one, ends the iteration there. *)
Definition gen_eval {A B} (r : result B) (k : B -> iteration A)
  : iteration A :=
  match r with
  | Ok b => k b
  | Raise e => Iteration [] (Some e)
  end.

(** Sequencing of two pieces of a generator body: the second runs only if
    the first did not raise. *)
Definition gen_seq {A} (g1 g2 : iteration A) : iteration A :=
  match raised g1 with
  | Some e => g1
  | None => Iteration (yielded g1 ++ yielded g2) (raised g2)
  end.

(** [for each in keys: body each] inside a generator. *)
Fixpoint gen_for {K A} (keys : list K) (body : K -> iteration A)
  : iteration A :=
  match keys with
  | [] => gen_return
  | each :: rest => gen_seq (body each) (gen_for rest body)
  end.

(** ** Operations of the Python data model used by the module *)

Fixpoint dict_lookup (key : string) (o : list (string * Any)) : option Any :=
  match o with
  | [] => None
  | (k, v) :: rest => if String.eqb key k then Some v else dict_lookup key rest
  end.

(** [isinstance(contents, bool)] *)
Definition isinstance_bool (contents : Schema) : bool :=
  match contents with
  | SBool _ => true
  | SObject _ => false
  end.

(** [key in contents]: membership among the keys of a mapping; a [bool] is
    not a container, and the test raises [TypeError]. *)
Definition py_in (key : string) (contents : Schema) : result bool :=
  match contents with
  | SBool _ => Raise TypeError
  | SObject o =>
      Ok (match dict_lookup key o with Some _ => true | None => false end)
  end.

(** [contents.get(key, default)]: a [bool] has no attribute [get]. *)
Definition py_get (contents : Schema) (key : string) (default : Any)
  : result Any :=
  match contents with
  | SBool _ => Raise AttributeError
  | SObject o =>
      Ok (match dict_lookup key o with Some v => v | None => default end)
  end.

(** [contents[key]] *)
Definition py_getitem (contents : Schema) (key : string) : result Any :=
  match contents with
  | SBool _ => Raise TypeError
  | SObject o =>
      match dict_lookup key o with
      | Some v => Ok v
      | None => Raise (KeyError key)
      end
  end.

(** [value is None] *)
Definition is_None (value : Any) : bool :=
  match value with
  | PNone => true
  | _ => false
  end.

(** [value.startswith(prefix)]: only [str] has the method. *)
Definition py_startswith (value : Any) (prefix : string) : result bool :=
  match value with
  | PStr s => Ok (String.prefix prefix s)
  | _ => Raise AttributeError
  end.

(** [s[1:]] on a string: all but the first character; empty stays empty. *)
Definition string_tail (s : string) : string :=
  match s with
  | EmptyString => EmptyString
  | String _ rest => rest
  end.

(** [value[1:]] *)
Definition py_slice_from_1 (value : Any) : result Any :=
  match value with
  | PStr s => Ok (PStr (string_tail s))
  | PList items => Ok (PList (tl items))
  | _ => Raise TypeError
  end.

Fixpoint characters (s : string) : list Any :=
  match s with
  | EmptyString => []
  | String c rest => PStr (String c EmptyString) :: characters rest
  end.

(** [iter(value)], run to exhaustion: a list gives its items, a dictionary
    its keys, a string its characters; the other values are not iterable. *)
Definition py_iter (value : Any) : result (list Any) :=
  match value with
  | PList items => Ok items
  | PDict items => Ok (map (fun kv => PStr (fst kv)) items)
  | PStr s => Ok (characters s)
  | _ => Raise TypeError
  end.

(** [value.values()]: only a mapping has the method. *)
Definition py_values (value : Any) : result (list Any) :=
  match value with
  | PDict items => Ok (map snd items)
  | _ => Raise AttributeError
  end.

(** ** Identifier extraction *)

Definition _dollar_id (contents : Schema) : result Any :=
  if isinstance_bool contents then Ok PNone
  else py_get contents "$id" PNone.

Definition _legacy_dollar_id (contents : Schema) : result Any :=
  if isinstance_bool contents then Ok PNone
  else
    has_ref <- py_in "$ref" contents ;;
    if has_ref then Ok PNone
    else
      id <- py_get contents "$id" PNone ;;
      if negb (is_None id) then
        starts <- py_startswith id "#" ;;
        if negb starts then Ok id else Ok PNone
      else Ok PNone.

Definition _legacy_id (contents : Schema) : result Any :=
  has_ref <- py_in "$ref" contents ;;
  if has_ref then Ok PNone
  else
    id <- py_get contents "id" PNone ;;
    if negb (is_None id) then
      starts <- py_startswith id "#" ;;
      if negb starts then Ok id else Ok PNone
    else Ok PNone.

(** ** Resources and anchors *)

(** Modelled from the spec: [Resource], [Anchor] and the method
    [Specification.create_resource] belong to the core of the [referencing]
    package, which this module imports.  An anchor is a pair of a name and
    the resource it designates; a resource pairs a schema node with the
    specification it was constructed under.  The type [S] stands for the
    specification object handed to [anchors_in]. *)
Module Resource.
Record t (D S : Type) : Type := make {
  contents : D;
  specification : S
}.
Arguments make {D S} contents specification.
Arguments contents {D S} _.
Arguments specification {D S} _.

(** [Resource.opaque(contents)]: a resource under no particular
    specification. *)
Definition opaque {D} (contents : D) : t D unit := make contents tt.
End Resource.

Module Anchor.
Record t (S : Type) : Type := make {
  name : Any;
  resource : Resource.t Schema S
}.
Arguments make {S} name resource.
Arguments name {S} _.
Arguments resource {S} _.
End Anchor.

(** [specification.create_resource(contents)] *)
Definition create_resource {S} (specification : S) (contents : Schema)
  : Resource.t Schema S :=
  Resource.make contents specification.

(** ** Anchor enumeration *)

Definition _anchor_2019 {S} (specification : S) (contents : Schema)
  : result (list (Anchor.t S)) :=
  if isinstance_bool contents then Ok []
  else
    anchor <- py_get contents "$anchor" PNone ;;
    if is_None anchor then Ok []
    else
      Ok [Anchor.make anchor (create_resource specification contents)].

Definition _legacy_anchor_in_dollar_id {S} (specification : S)
  (contents : Schema) : result (list (Anchor.t S)) :=
  if isinstance_bool contents then Ok []
  else
    id <- py_get contents "$id" (PStr "") ;;
    starts <- py_startswith id "#" ;;
    if negb starts then Ok []
    else
      tail <- py_slice_from_1 id ;;
      Ok [Anchor.make tail (create_resource specification contents)].

Definition _legacy_anchor_in_id {S} (specification : S)
  (contents : Schema) : result (list (Anchor.t S)) :=
  id <- py_get contents "id" (PStr "") ;;
  starts <- py_startswith id "#" ;;
  if negb starts then Ok []
  else
    tail <- py_slice_from_1 id ;;
    Ok [Anchor.make tail (create_resource specification contents)].

(** ** Sub-schema enumeration *)

(** A [Set[str]] argument is given as the list of its elements in the order
    in which iterating over the set visits them.  Every dialect below passes
    the three sets, so their default [frozenset()] is never used.  The
    function returned is a generator function: [return] ends the iteration,
    and an exception surfaces when the iteration reaches it. *)
Definition _subresources_of (in_value in_subvalues in_subarray : list string)
  (contents : Schema) : iteration Any :=
  if isinstance_bool contents then gen_return
  else
    gen_seq
      (gen_for in_value (fun each =>
         gen_eval (py_in each contents) (fun present =>
           if present then
             gen_eval (py_getitem contents each) gen_yield
           else gen_return)))
      (gen_seq
         (gen_for in_subarray (fun each =>
            gen_eval (py_in each contents) (fun present =>
              if present then
                gen_eval (value <- py_getitem contents each ;; py_iter value)
                  gen_yield_from
              else gen_return)))
         (gen_for in_subvalues (fun each =>
            gen_eval (py_in each contents) (fun present =>
              if present then
                gen_eval (value <- py_getitem contents each ;; py_values value)
                  gen_yield_from
              else gen_return)))).

(** ** Specifications *)

(** Modelled from the spec: the class [Specification] is declared in the
    core of the [referencing] package; it is a named bundle of the three
    extraction functions.  [anchors_in] receives the specification under
    which the anchors' resources are constructed. *)
Record Specification : Type := {
  name : string;
  id_of : Schema -> result Any;
  subresources_of : Schema -> iteration Any;
  anchors_in : forall S : Type, S -> Schema -> result (list (Anchor.t S))
}.

(** Modelled from the spec: [Registry] is declared in the core of the
    [referencing] package.  It is an immutable mapping from URIs to
    resources, and [get] looks a URI up as the exact string it is given,
    without normalization, answering [None] when no entry has that key. *)
Definition Registry (D : Type) : Type := list (URI * Resource.t D unit).

Fixpoint Registry_get {D} (registry : Registry D) (uri : URI)
  : option (Resource.t D unit) :=
  match registry with
  | [] => None
  | (key, resource) :: rest =>
      if String.eqb uri key then Some resource else Registry_get rest uri
  end.

(** An argument that has a default value: left out of the call, or passed. *)
Inductive argument (A : Type) : Type :=
| Omitted
| Passed (value : A).
Arguments Omitted {A}.
Arguments Passed {A} value.

Definition or_default {A} (arg : argument A) (default : A) : A :=
  match arg with
  | Omitted => default
  | Passed value => value
  end.

(** ** Classification of values *)

(** [isinstance(value, str)] *)
Definition is_str (value : Any) : bool :=
  match value with
  | PStr _ => true
  | _ => false
  end.

(** The values [iter] accepts: lists, dictionaries and strings. *)
Definition is_iterable (value : Any) : bool :=
  match value with
  | PList _ | PDict _ | PStr _ => true
  | _ => false
  end.

(** A value yielded by the enumeration, handed back as a schema node: only
    booleans and dictionaries are of type [Schema]. *)
Definition as_schema (value : Any) : option Schema :=
  match value with
  | PBool b => Some (SBool b)
  | PDict o => Some (SObject o)
  | _ => None
  end.

(** ** Sample data *)

(** One admissible iteration order: the order of the literal. *)
Definition literal_order (l : list string) : list string := l.

(** Two object nodes, written for draft-03 and for draft-07. *)
Definition draft3_node : ObjectSchema :=
  [ ("extends", PList [PDict [("a", PInt 1)]; PBool true]);
    ("properties", PDict [("p", PDict [("b", PInt 2)])]);
    ("additionalProperties", PBool false) ].

Definition draft7_node : ObjectSchema :=
  [ ("$id", PStr "#frag");
    ("allOf", PList [PDict [("a", PInt 1)]]);
    ("definitions", PDict []) ].

(** A node closed to further properties, as draft-04 schemas commonly are,
    and a node no dialect can enumerate to the end. *)
Definition closed_node : ObjectSchema :=
  [ ("type", PStr "object");
    ("additionalProperties", PBool false) ].

Definition ill_typed_node : ObjectSchema :=
  [ ("not", PDict [("a", PInt 1)]);
    ("allOf", PInt 5);
    ("properties", PDict []) ].

(** Two nodes which differ by a keyword draft-06 does not read. *)
Definition conditional_node : ObjectSchema :=
  [ ("if", PDict [("a", PInt 1)]);
    ("not", PDict [("b", PInt 2)]) ].

Definition negation_node : ObjectSchema :=
  [ ("not", PDict [("b", PInt 2)]) ].

Section Dialects.

(** The keyword sets of the dialects are written as set literals.  The
    order in which a [set] of strings is iterated is fixed for the life of
    the process but is not the order of the literal: it follows the
    strings' hashes.  [set_literal l] is the iteration order of the set
    built from the literal whose elements are [l]. *)
Variable set_literal : list string -> list string.
Hypothesis set_literal_elements :
  forall l, NoDup l -> Permutation (set_literal l) l.

Definition DRAFT202012 : Specification := {|
  name := "draft2020-12";
  id_of := _dollar_id;
  subresources_of := fun contents => gen_of_list [];
  anchors_in := fun S specification contents => Ok []
|}.

Definition DRAFT201909 : Specification := {|
  name := "draft2019-09";
  id_of := _dollar_id;
  subresources_of :=
    _subresources_of
      (set_literal ["additionalProperties"; "if"; "then"; "else"; "not"])
      (set_literal ["$defs"; "properties"])
      (set_literal ["allOf"; "anyOf"; "oneOf"]);
  anchors_in := @_anchor_2019
|}.

Definition DRAFT7 : Specification := {|
  name := "draft-07";
  id_of := _legacy_dollar_id;
  subresources_of :=
    _subresources_of
      (set_literal ["additionalProperties"; "if"; "then"; "else"; "not"])
      (set_literal ["definitions"; "properties"])
      (set_literal ["allOf"; "anyOf"; "oneOf"]);
  anchors_in := @_legacy_anchor_in_dollar_id
|}.

Definition DRAFT6 : Specification := {|
  name := "draft-06";
  id_of := _legacy_dollar_id;
  subresources_of :=
    _subresources_of
      (set_literal ["additionalProperties"; "not"])
      (set_literal ["definitions"; "properties"])
      (set_literal ["allOf"; "anyOf"; "oneOf"]);
  anchors_in := @_legacy_anchor_in_dollar_id
|}.

Definition DRAFT4 : Specification := {|
  name := "draft-04";
  id_of := _legacy_id;
  subresources_of :=
    _subresources_of
      (set_literal ["additionalProperties"; "not"])
      (set_literal ["definitions"; "properties"])
      (set_literal ["allOf"; "anyOf"; "oneOf"]);
  anchors_in := @_legacy_anchor_in_id
|}.

Definition DRAFT3 : Specification := {|
  name := "draft-03";
  id_of := _legacy_id;
  subresources_of :=
    _subresources_of
      (set_literal ["additionalProperties"])
      (set_literal ["definitions"; "properties"])
      (set_literal ["extends"]);
  anchors_in := @_legacy_anchor_in_id
|}.

(** ** The catalog and its lookup *)

(** The dictionary comprehension maps each pair of the list to an entry; the
    six keys are distinct. *)
Definition _SPECIFICATIONS : Registry Specification :=
  map (fun entry => (fst entry, Resource.opaque (snd entry)))
    [ ("https://json-schema.org/draft/2020-12/schema", DRAFT202012);
      ("https://json-schema.org/draft/2019-09/schema", DRAFT201909);
      ("http://json-schema.org/draft-07/schema#", DRAFT7);
      ("http://json-schema.org/draft-06/schema#", DRAFT6);
      ("http://json-schema.org/draft-04/schema#", DRAFT4);
      ("http://json-schema.org/draft-03/schema#", DRAFT3) ].

(** The parameter [default] is declared as [default = None]: a value of
    type [option Specification] is a [Specification] or Python's [None],
    and such a value is also what the function returns. *)
Definition specification_with (dialect_id : URI)
  (default : argument (option Specification))
  : result (option Specification) :=
  let default := or_default default None in
  match Registry_get _SPECIFICATIONS dialect_id with
  | Some resource => Ok (Some (Resource.contents resource))
  | None =>
      match default with
      | None => Raise (UnknownDialect dialect_id)
      | Some _ => Ok default
      end
  end.

(** ** Tables used to state the properties *)

(** The six catalog keys, as the specification lists them. *)
Definition catalog_keys : list URI :=
  [ "https://json-schema.org/draft/2020-12/schema";
    "https://json-schema.org/draft/2019-09/schema";
    "http://json-schema.org/draft-07/schema#";
    "http://json-schema.org/draft-06/schema#";
    "http://json-schema.org/draft-04/schema#";
    "http://json-schema.org/draft-03/schema#" ].

(** The dialect label expected under each catalog key. *)
Definition catalog_labels : list (URI * string) :=
  [ ("https://json-schema.org/draft/2020-12/schema", "draft2020-12");
    ("https://json-schema.org/draft/2019-09/schema", "draft2019-09");
    ("http://json-schema.org/draft-07/schema#", "draft-07");
    ("http://json-schema.org/draft-06/schema#", "draft-06");
    ("http://json-schema.org/draft-04/schema#", "draft-04");
    ("http://json-schema.org/draft-03/schema#", "draft-03") ].

Definition all_dialects : list Specification :=
  [DRAFT202012; DRAFT201909; DRAFT7; DRAFT6; DRAFT4; DRAFT3].

(** The dialects whose functions test for a boolean node first. *)
Definition boolean_aware_dialects : list Specification :=
  [DRAFT202012; DRAFT201909; DRAFT7; DRAFT6].

Definition modern_dialects : list Specification :=
  [DRAFT202012; DRAFT201909].

(** The legacy dialects with the keyword each reads its identifier and
    its anchor from. *)
Definition legacy_dialects : list (Specification * string) :=
  [ (DRAFT7, "$id"); (DRAFT6, "$id"); (DRAFT4, "id"); (DRAFT3, "id") ].

(** The dialects whose identifier and anchor functions do not test for a
    boolean node. *)
Definition object_only_dialects : list Specification := [DRAFT4; DRAFT3].

(** The keyword table of the specification (its section 4.4): for each
    dialect the [in_value], [in_subarray] and [in_subvalues] keywords. *)
Definition keyword_table
  : list (Specification * (list string * list string * list string)) :=
  [ (DRAFT202012, ([], [], []));
    (DRAFT201909,
      (["additionalProperties"; "if"; "then"; "else"; "not"],
       ["allOf"; "anyOf"; "oneOf"],
       ["$defs"; "properties"]));
    (DRAFT7,
      (["additionalProperties"; "if"; "then"; "else"; "not"],
       ["allOf"; "anyOf"; "oneOf"],
       ["definitions"; "properties"]));
    (DRAFT6,
      (["additionalProperties"; "not"],
       ["allOf"; "anyOf"; "oneOf"],
       ["definitions"; "properties"]));
    (DRAFT4,
      (["additionalProperties"; "not"],
       ["allOf"; "anyOf"; "oneOf"],
       ["definitions"; "properties"]));
    (DRAFT3,
      (["additionalProperties"],
       ["extends"],
       ["definitions"; "properties"])) ].

(** What one keyword contributes to the enumeration of an object node:
    the schema under an [in_value] keyword, the elements of the array
    under an [in_subarray] keyword, the values of the mapping under an
    [in_subvalues] keyword; nothing when the keyword is missing. *)
Definition schema_at (o : ObjectSchema) (keyword : string) : list Any :=
  match dict_lookup keyword o with
  | Some v => [v]
  | None => []
  end.

Definition elements_at (o : ObjectSchema) (keyword : string) : list Any :=
  match dict_lookup keyword o with
  | Some (PList items) => items
  | _ => []
  end.

Definition values_at (o : ObjectSchema) (keyword : string) : list Any :=
  match dict_lookup keyword o with
  | Some (PDict items) => map snd items
  | _ => []
  end.

(** Typing of the values an object node holds under given keywords, when
    it holds any: strings, arrays, mappings. *)
Definition strings_under (o : ObjectSchema) (keywords : list string) : bool :=
  forallb (fun k => match dict_lookup k o with
                    | Some (PStr _) | None => true
                    | _ => false
                    end) keywords.

Definition arrays_under (o : ObjectSchema) (keywords : list string) : bool :=
  forallb (fun k => match dict_lookup k o with
                    | Some (PList _) | None => true
                    | _ => false
                    end) keywords.

Definition mappings_under (o : ObjectSchema) (keywords : list string) : bool :=
  forallb (fun k => match dict_lookup k o with
                    | Some (PDict _) | None => true
                    | _ => false
                    end) keywords.

(** The values under the given keywords, when there are any, can be
    iterated over. *)
Definition iterables_under (o : ObjectSchema) (keywords : list string) : bool :=
  forallb (fun k => match dict_lookup k o with
                    | Some v => is_iterable v
                    | None => true
                    end) keywords.

(** The keywords the six dialects read hold values of the JSON type the
    dialects expect there. *)
Definition keywords_well_typed (o : ObjectSchema) : bool :=
  strings_under o ["$id"; "id"]
  && arrays_under o ["allOf"; "anyOf"; "oneOf"; "extends"]
  && mappings_under o ["$defs"; "definitions"; "properties"].

(** The example node of the specification, and the same node with the
    2019-09 spelling of the definitions keyword. *)
Definition example_node : Schema :=
  SObject
    [ ("allOf", PList [PDict [("a", PInt 1)]; PDict [("b", PInt 2)]]);
      ("definitions", PDict [("x", PDict [("c", PInt 3)])]) ].

Definition example_node_defs : Schema :=
  SObject
    [ ("allOf", PList [PDict [("a", PInt 1)]; PDict [("b", PInt 2)]]);
      ("$defs", PDict [("x", PDict [("c", PInt 3)])]) ].

(** ** Proof automation *)

(** Case analysis on every string comparison of the goal. *)
Ltac string_cases :=
  repeat match goal with
         | |- context [String.eqb ?a ?b] =>
             destruct (String.eqb_spec a b); subst
         end.

(** The strings of a literal list are pairwise distinct. *)
Ltac distinct_strings :=
  repeat (apply NoDup_cons; [cbn; intuition discriminate|]); apply NoDup_nil.

(** A property of each keyword of a literal list, by cases. *)
Ltac each_keyword :=
  let k := fresh "k" in
  let Hk := fresh "Hk" in
  intros k Hk; cbn in Hk;
  repeat (destruct Hk as [<-|Hk]; [try reflexivity; try congruence|]);
  try destruct Hk.

(** Inclusion between two literal lists. *)
Ltac sublist :=
  let x := fresh "x" in
  let Hx := fresh "Hx" in
  intros x Hx; cbn in Hx |- *; tauto.

(** ** Auxiliary facts *)

Lemma Registry_get_outside_catalog (uri : URI) :
  ~ In uri catalog_keys -> Registry_get _SPECIFICATIONS uri = None.
Proof.
  intros Hout. unfold _SPECIFICATIONS. cbn [map fst snd Registry_get].
  string_cases; try reflexivity; exfalso; apply Hout; cbn; tauto.
Qed.

Lemma Registry_get_some_in_catalog (uri : URI) resource :
  Registry_get _SPECIFICATIONS uri = Some resource -> In uri catalog_keys.
Proof.
  unfold _SPECIFICATIONS. cbn [map fst snd Registry_get].
  string_cases; cbn; try tauto. discriminate.
Qed.

(** ** The catalog and its lookup: properties *)

(** C1: for a URI that is not one of the six catalog keys,
    [specification_with] without a default raises [UnknownDialect]
    carrying exactly that URI, and with a default specification supplied
    by the caller it returns that default and does not raise. *)
Theorem specification_with_unknown (uri : URI) (default : Specification) :
  ~ In uri catalog_keys ->
  specification_with uri Omitted = Raise (UnknownDialect uri)
  /\ specification_with uri (Passed (Some default)) = Ok (Some default).
Proof.
  intros Hout. unfold specification_with.
  rewrite (Registry_get_outside_catalog uri Hout). split; reflexivity.
Qed.

(** C6: under each of the six catalog URIs, [specification_with] returns
    (whatever the default) a specification whose name is the expected
    dialect label; the lookup compares the URI as given, so a URI which is
    not literally one of the six keys, such as a key without its trailing
    [#] or with the other scheme, is unmatched. *)
Theorem specification_with_catalog :
  (forall uri label, In (uri, label) catalog_labels ->
     forall default, exists specification,
       specification_with uri default = Ok (Some specification)
       /\ name specification = label)
  /\ (forall uri default specification,
        specification_with uri default = Ok (Some specification) ->
        In uri catalog_keys \/ default = Passed (Some specification))
  /\ (forall uri, ~ In uri catalog_keys ->
        specification_with uri Omitted = Raise (UnknownDialect uri))
  /\ specification_with "http://json-schema.org/draft-07/schema" Omitted
     = Raise (UnknownDialect "http://json-schema.org/draft-07/schema")
  /\ specification_with "https://json-schema.org/draft-07/schema#" Omitted
     = Raise (UnknownDialect "https://json-schema.org/draft-07/schema#")
  /\ specification_with "https://json-schema.org/draft/2020-12/schema/"
       Omitted
     = Raise (UnknownDialect "https://json-schema.org/draft/2020-12/schema/").
Proof.
  split; [|split; [|split; [|repeat split]]].
  - intros uri label Hin default.
    cbn in Hin.
    repeat (destruct Hin as [Heq | Hin];
            [injection Heq as <- <-; eexists; split; reflexivity|]).
    contradiction.
  - intros uri default specification. unfold specification_with.
    destruct (Registry_get _SPECIFICATIONS uri) as [resource|] eqn:Hget.
    + intros _. left. exact (Registry_get_some_in_catalog uri resource Hget).
    + destruct default as [|[d|]]; cbn; intros H; try discriminate.
      right. congruence.
  - intros uri Hout. unfold specification_with.
    rewrite (Registry_get_outside_catalog uri Hout). reflexivity.
Qed.

(** C10: passing [None] explicitly as the default is the same as passing
    no default: for a URI outside the catalog the call raises
    [UnknownDialect]; and no call, whatever its arguments, returns
    [None]. *)
Theorem specification_with_default_None :
  (forall uri, ~ In uri catalog_keys ->
     specification_with uri (Passed None) = specification_with uri Omitted
     /\ specification_with uri (Passed None) = Raise (UnknownDialect uri))
  /\ (forall uri default, specification_with uri default <> Ok None).
Proof.
  split.
  - intros uri Hout. unfold specification_with.
    rewrite (Registry_get_outside_catalog uri Hout). split; reflexivity.
  - intros uri default. unfold specification_with.
    destruct (Registry_get _SPECIFICATIONS uri);
      destruct default as [|[d|]]; cbn; discriminate.
Qed.

(** ** Identifier extraction: properties *)

Lemma starts_with_hash (s : string) :
  String.prefix "#" s = true <-> exists rest, s = "#" ++ rest.
Proof.
  split.
  - destruct s as [|c rest]; [discriminate|].
    unfold String.prefix.
    destruct (Ascii.ascii_dec "#"%char c) as [<-|]; [|discriminate].
    intros _. now exists rest.
  - intros [rest ->]. simpl.
    destruct (Ascii.ascii_dec "#"%char "#"%char); [|congruence].
    now destruct rest.
Qed.

(** C9: for the 2020-12 and 2019-09 dialects, identifier extraction on an
    object node returns the value of [$id] whenever the keyword is
    present, whether or not the node has a sibling [$ref] and whether or
    not the value starts with [#]; it returns nothing when [$id] is absent
    and for a boolean node. *)
Theorem modern_id_of (specification : Specification) :
  In specification modern_dialects ->
  (forall o v, dict_lookup "$id" o = Some v ->
     id_of specification (SObject o) = Ok v)
  /\ (forall o, dict_lookup "$id" o = None ->
        id_of specification (SObject o) = Ok PNone)
  /\ (forall b, id_of specification (SBool b) = Ok PNone)
  /\ id_of specification (SObject [("$id", PStr "http://x/a")])
     = Ok (PStr "http://x/a")
  /\ id_of specification
       (SObject [("$ref", PStr "#/foo"); ("$id", PStr "#frag")])
     = Ok (PStr "#frag").
Proof.
  intros Hin.
  assert (Hid : id_of specification = _dollar_id).
  { destruct Hin as [<-|[<-|[]]]; reflexivity. }
  rewrite Hid. unfold _dollar_id. cbn.
  repeat split; try reflexivity.
  - intros o v ->. reflexivity.
  - intros o ->. reflexivity.
Qed.

Lemma legacy_id_of_unfold specification keyword (o : ObjectSchema) :
  In (specification, keyword) legacy_dialects ->
  id_of specification (SObject o) =
    match dict_lookup "$ref" o with
    | Some _ => Ok PNone
    | None =>
        match dict_lookup keyword o with
        | None | Some PNone => Ok PNone
        | Some (PStr s) =>
            if String.prefix "#" s then Ok PNone else Ok (PStr s)
        | Some _ => Raise AttributeError
        end
    end.
Proof.
  intros Hin.
  destruct Hin as [Heq|[Heq|[Heq|[Heq|[]]]]]; injection Heq as <- <-;
    cbn; unfold _legacy_dollar_id, _legacy_id; cbn;
    destruct (dict_lookup "$ref" o); cbn; try reflexivity;
    match goal with
    | |- context [dict_lookup ?k o] => destruct (dict_lookup k o) as [[]|]
    end; cbn; try reflexivity;
    match goal with
    | |- context [String.prefix ?p ?s] => destruct (String.prefix p s)
    end; reflexivity.
Qed.

(** C4: for the legacy dialects (draft-07 and draft-06 reading [$id],
    draft-04 and draft-03 reading [id]), identifier extraction on an
    object node returns the keyword's value exactly when the node has no
    [$ref] keyword and the value does not start with [#]; when the keyword
    is absent, when a sibling [$ref] is present, or when the value starts
    with [#], it returns nothing. *)
Theorem legacy_id_of specification keyword (o : ObjectSchema) :
  In (specification, keyword) legacy_dialects ->
  (forall s, dict_lookup keyword o = Some (PStr s) ->
     dict_lookup "$ref" o = None ->
     String.prefix "#" s = false ->
     id_of specification (SObject o) = Ok (PStr s))
  /\ (dict_lookup keyword o = None ->
        id_of specification (SObject o) = Ok PNone)
  /\ (dict_lookup "$ref" o <> None ->
        id_of specification (SObject o) = Ok PNone)
  /\ (forall s, dict_lookup keyword o = Some (PStr s) ->
        String.prefix "#" s = true ->
        id_of specification (SObject o) = Ok PNone)
  /\ (forall s, id_of specification (SObject o) = Ok (PStr s) ->
        dict_lookup keyword o = Some (PStr s)
        /\ dict_lookup "$ref" o = None
        /\ String.prefix "#" s = false).
Proof.
  intros Hin. rewrite (legacy_id_of_unfold _ _ o Hin).
  repeat split.
  - intros s -> -> ->. reflexivity.
  - intros ->. now destruct (dict_lookup "$ref" o).
  - intros Href. destruct (dict_lookup "$ref" o); congruence.
  - intros s -> ->. now destruct (dict_lookup "$ref" o).
  - destruct (dict_lookup "$ref" o); [discriminate|].
    destruct (dict_lookup keyword o) as [[| | | |id| |]|]; try discriminate.
    destruct (String.prefix "#" id); congruence.
  - now destruct (dict_lookup "$ref" o).
  - destruct (dict_lookup "$ref" o); [discriminate|].
    destruct (dict_lookup keyword o) as [[| | | |id| |]|]; try discriminate.
    destruct (String.prefix "#" id) eqn:E; congruence.
Qed.

(** ** Anchor enumeration: properties *)

Lemma legacy_anchors_in_unfold specification keyword
  (S : Type) (self : S) (o : ObjectSchema) :
  In (specification, keyword) legacy_dialects ->
  anchors_in specification S self (SObject o) =
    match dict_lookup keyword o with
    | None => Ok []
    | Some (PStr id) =>
        if String.prefix "#" id then
          Ok [Anchor.make (PStr (string_tail id))
                (Resource.make (SObject o) self)]
        else Ok []
    | Some _ => Raise AttributeError
    end.
Proof.
  intros Hin.
  destruct Hin as [Heq|[Heq|[Heq|[Heq|[]]]]]; injection Heq as <- <-;
    cbn; unfold _legacy_anchor_in_dollar_id, _legacy_anchor_in_id; cbn;
    match goal with
    | |- context [dict_lookup ?k o] => destruct (dict_lookup k o) as [[]|]
    end; cbn; try reflexivity;
    match goal with
    | |- context [String.prefix ?p ?s] => destruct (String.prefix p s)
    end; reflexivity.
Qed.

(** C7: for the legacy dialects (draft-07 and draft-06 reading [$id],
    draft-04 and draft-03 reading [id]), anchor enumeration on an object
    node whose keyword holds a string starting with [#] gives exactly one
    anchor, named by everything after the [#] and designating the node
    itself; the value ["#"] gives one anchor with the empty name; when the
    keyword is absent, or its value does not start with [#], the result is
    empty. *)
Theorem legacy_anchors_in specification keyword
  (S : Type) (self : S) (o : ObjectSchema) :
  In (specification, keyword) legacy_dialects ->
  (forall rest, dict_lookup keyword o = Some (PStr ("#" ++ rest)) ->
     anchors_in specification S self (SObject o)
     = Ok [Anchor.make (PStr rest) (Resource.make (SObject o) self)])
  /\ (dict_lookup keyword o = Some (PStr "#") ->
        anchors_in specification S self (SObject o)
        = Ok [Anchor.make (PStr "") (Resource.make (SObject o) self)])
  /\ (dict_lookup keyword o = None ->
        anchors_in specification S self (SObject o) = Ok [])
  /\ (forall id, dict_lookup keyword o = Some (PStr id) ->
        String.prefix "#" id = false ->
        anchors_in specification S self (SObject o) = Ok []).
Proof.
  intros Hin. rewrite (legacy_anchors_in_unfold _ _ S self o Hin).
  repeat split.
  - intros rest ->.
    assert (Hprefix : String.prefix "#" ("#" ++ rest) = true)
      by (apply starts_with_hash; now exists rest).
    rewrite Hprefix. reflexivity.
  - intros ->. reflexivity.
  - intros ->. reflexivity.
  - intros id -> ->. reflexivity.
Qed.

(** C2, as the code has it: for the 2019-09 dialect, anchor enumeration on
    an object node whose [$anchor] keyword holds any value other than
    [None], the empty string included, gives exactly one anchor, named by
    that value and designating the node itself; when [$anchor] is absent
    the result is empty. *)
Theorem anchor_2019_anchors_in (S : Type) (self : S) (o : ObjectSchema) :
  (forall v, dict_lookup "$anchor" o = Some v -> v <> PNone ->
     anchors_in DRAFT201909 S self (SObject o)
     = Ok [Anchor.make v (Resource.make (SObject o) self)])
  /\ (dict_lookup "$anchor" o = None ->
        anchors_in DRAFT201909 S self (SObject o) = Ok [])
  /\ (dict_lookup "$anchor" o = Some (PStr "") ->
        anchors_in DRAFT201909 S self (SObject o)
        = Ok [Anchor.make (PStr "") (Resource.make (SObject o) self)])
  /\ anchors_in DRAFT201909 S self (SObject [("$anchor", PStr "foo")])
     = Ok [Anchor.make (PStr "foo")
             (Resource.make (SObject [("$anchor", PStr "foo")]) self)].
Proof.
  cbn. unfold _anchor_2019. cbn. repeat split.
  - intros v -> Hv. destruct v; try reflexivity. congruence.
  - intros ->. reflexivity.
  - intros ->. reflexivity.
Qed.

(** C8: for the 2020-12 dialect, sub-schema enumeration and anchor
    enumeration give the empty sequence for every schema node, boolean or
    object. *)
Theorem draft202012_empty (contents : Schema) (S : Type) (self : S) :
  subresources_of DRAFT202012 contents = Iteration [] None
  /\ anchors_in DRAFT202012 S self contents = Ok [].
Proof. split; reflexivity. Qed.

(** ** Sub-schema enumeration: properties *)

Lemma gen_for_pure {K A} (keys : list K) (body : K -> iteration A)
  (f : K -> list A) :
  (forall k, In k keys -> body k = Iteration (f k) None) ->
  gen_for keys body = Iteration (flat_map f keys) None.
Proof.
  induction keys as [|k keys IH]; intros Hbody; [reflexivity|].
  cbn [gen_for flat_map].
  rewrite (Hbody k (or_introl eq_refl)).
  rewrite IH by (intros k' Hk'; apply Hbody; now right).
  reflexivity.
Qed.

Lemma flat_map_nothing {K A} (f : K -> list A) (keys : list K) :
  (forall k, In k keys -> f k = []) -> flat_map f keys = [].
Proof.
  induction keys as [|k keys IH]; intros Hnil; [reflexivity|].
  cbn [flat_map]. rewrite (Hnil k (or_introl eq_refl)).
  apply IH. intros k' Hk'. apply Hnil. now right.
Qed.

(** When a single one of the keywords contributes, the order in which the
    keywords are visited does not show in the result. *)
Lemma flat_map_single {A} (f : string -> list A) (keys : list string)
  (present : string) :
  NoDup keys -> In present keys ->
  (forall k, In k keys -> k <> present -> f k = []) ->
  flat_map f keys = f present.
Proof.
  induction keys as [|k keys IH]; intros Hnodup Hin Hothers; [destruct Hin|].
  apply NoDup_cons_iff in Hnodup as [Hfresh Hnodup]. cbn [flat_map].
  destruct (string_dec k present) as [->|Hneq].
  - rewrite flat_map_nothing; [apply app_nil_r|].
    intros k' Hk'. apply Hothers; [now right|]. congruence.
  - rewrite (Hothers k (or_introl eq_refl) Hneq). cbn [app].
    destruct Hin as [Heq|Hin]; [congruence|].
    apply IH; auto. intros k' Hk'. apply Hothers. now right.
Qed.

Lemma forallb_permuted {A} (test : A -> bool) (l l' : list A) :
  Permutation l' l -> forallb test l = true -> forallb test l' = true.
Proof.
  intros Hperm Hall. rewrite forallb_forall in *.
  intros x Hx. apply Hall. exact (Permutation_in x Hperm Hx).
Qed.

Lemma forallb_subset {A} (test : A -> bool) (l l' : list A) :
  incl l' l -> forallb test l = true -> forallb test l' = true.
Proof.
  intros Hincl Hall. rewrite forallb_forall in *.
  intros x Hx. apply Hall, Hincl, Hx.
Qed.

(** On an object node whose [in_subarray] keywords hold arrays and whose
    [in_subvalues] keywords hold mappings, the generator runs to its end
    and yields the three groups one after the other. *)
Lemma _subresources_of_object (in_value in_subvalues in_subarray : list string)
  (o : ObjectSchema) :
  arrays_under o in_subarray = true ->
  mappings_under o in_subvalues = true ->
  _subresources_of in_value in_subvalues in_subarray (SObject o)
  = Iteration (flat_map (schema_at o) in_value
               ++ flat_map (elements_at o) in_subarray
               ++ flat_map (values_at o) in_subvalues) None.
Proof.
  intros Harrays Hmappings.
  unfold arrays_under, mappings_under in *.
  rewrite forallb_forall in Harrays, Hmappings.
  unfold _subresources_of. cbn [isinstance_bool].
  rewrite (gen_for_pure in_value _ (schema_at o)).
  2:{ intros k _. unfold schema_at. cbn.
      now destruct (dict_lookup k o). }
  rewrite (gen_for_pure in_subarray _ (elements_at o)).
  2:{ intros k Hk. specialize (Harrays k Hk). unfold elements_at. cbn.
      destruct (dict_lookup k o) as [[]|]; try discriminate; reflexivity. }
  rewrite (gen_for_pure in_subvalues _ (values_at o)).
  2:{ intros k Hk. specialize (Hmappings k Hk). unfold values_at. cbn.
      destruct (dict_lookup k o) as [[]|]; try discriminate; reflexivity. }
  reflexivity.
Qed.

(** Each dialect enumerates with its keyword sets of the table, visited in
    the order the sets are iterated in. *)
Lemma subresources_of_table specification in_value in_subarray in_subvalues :
  In (specification, (in_value, in_subarray, in_subvalues)) keyword_table ->
  exists value_order subarray_order subvalues_order,
    Permutation value_order in_value
    /\ Permutation subarray_order in_subarray
    /\ Permutation subvalues_order in_subvalues
    /\ forall o,
         arrays_under o in_subarray = true ->
         mappings_under o in_subvalues = true ->
         subresources_of specification (SObject o)
         = Iteration (flat_map (schema_at o) value_order
                      ++ flat_map (elements_at o) subarray_order
                      ++ flat_map (values_at o) subvalues_order) None.
Proof.
  intros Hin.
  destruct Hin as [Heq|Hin].
  { injection Heq as <- <- <- <-. exists [], [], [].
    repeat split; try apply perm_nil. }
  repeat (destruct Hin as [Heq|Hin];
    [ injection Heq as <- <- <- <-;
      eexists _, _, _;
      split; [apply set_literal_elements; distinct_strings|];
      split; [apply set_literal_elements; distinct_strings|];
      split; [apply set_literal_elements; distinct_strings|];
      intros o Harrays Hmappings;
      apply _subresources_of_object;
      [ eapply forallb_permuted; [|exact Harrays];
        apply set_literal_elements; distinct_strings
      | eapply forallb_permuted; [|exact Hmappings];
        apply set_literal_elements; distinct_strings ]
    |]).
  destruct Hin.
Qed.

Lemma subresources_of_boolean specification (b : bool) :
  In specification all_dialects ->
  subresources_of specification (SBool b) = Iteration [] None.
Proof.
  intros Hin.
  repeat (destruct Hin as [<-|Hin]; [reflexivity|]). destruct Hin.
Qed.

Lemma flat_map_set_literal_nothing {A} (f : string -> list A)
  (l : list string) :
  NoDup l -> (forall k, In k l -> f k = []) ->
  flat_map f (set_literal l) = [].
Proof.
  intros Hnodup Hnil. apply flat_map_nothing. intros k Hk. apply Hnil.
  exact (Permutation_in k (set_literal_elements l Hnodup) Hk).
Qed.

Lemma flat_map_set_literal_single {A} (f : string -> list A)
  (l : list string) (present : string) :
  NoDup l -> In present l ->
  (forall k, In k l -> k <> present -> f k = []) ->
  flat_map f (set_literal l) = f present.
Proof.
  intros Hnodup Hin Hothers.
  pose proof (set_literal_elements l Hnodup) as Hperm.
  apply flat_map_single.
  - exact (Permutation_NoDup (Permutation_sym Hperm) Hnodup).
  - exact (Permutation_in present (Permutation_sym Hperm) Hin).
  - intros k Hk. apply Hothers. exact (Permutation_in k Hperm Hk).
Qed.

(** C5, as the code has it: for every dialect, sub-schema enumeration on
    an object node (holding arrays under the [in_subarray] keywords and
    mappings under the [in_subvalues] keywords) yields first the schemas
    under the [in_value] keywords, at most one for each, then the elements
    of the array under each [in_subarray] keyword in the array's order,
    then the values of the mapping under each [in_subvalues] keyword in
    the mapping's order, every keyword of a set being visited once; a
    keyword missing from the node contributes nothing and raises nothing;
    a boolean node yields nothing.  The 2019-09 dialect reads [$defs] and
    not [definitions]: on the node [{"allOf": [{"a":1}, {"b":2}],
    "definitions": {"x": {"c":3}}}] it yields [{"a":1}, {"b":2}]; with
    [$defs] in the place of [definitions] it yields [{"a":1}, {"b":2},
    {"c":3}], as draft-07 does on the node with [definitions]. *)
Theorem subresources_of_order :
  (forall specification in_value in_subarray in_subvalues,
     In (specification, (in_value, in_subarray, in_subvalues))
       keyword_table ->
     forall o,
       arrays_under o in_subarray = true ->
       mappings_under o in_subvalues = true ->
       exists value_order subarray_order subvalues_order,
         Permutation value_order in_value
         /\ Permutation subarray_order in_subarray
         /\ Permutation subvalues_order in_subvalues
         /\ subresources_of specification (SObject o)
            = Iteration (flat_map (schema_at o) value_order
                         ++ flat_map (elements_at o) subarray_order
                         ++ flat_map (values_at o) subvalues_order) None)
  /\ (forall o keyword, dict_lookup keyword o = None ->
        schema_at o keyword = [] /\ elements_at o keyword = []
        /\ values_at o keyword = [])
  /\ (forall o keyword, List.length (schema_at o keyword) <= 1)
  /\ (forall specification b, In specification all_dialects ->
        subresources_of specification (SBool b) = Iteration [] None)
  /\ subresources_of DRAFT201909 example_node
     = Iteration [PDict [("a", PInt 1)]; PDict [("b", PInt 2)]] None
  /\ subresources_of DRAFT201909 example_node_defs
     = Iteration [PDict [("a", PInt 1)]; PDict [("b", PInt 2)];
                  PDict [("c", PInt 3)]] None
  /\ subresources_of DRAFT7 example_node
     = Iteration [PDict [("a", PInt 1)]; PDict [("b", PInt 2)];
                  PDict [("c", PInt 3)]] None.
Proof.
  split; [|split; [|split; [|split; [|split; [|split]]]]].
  - intros specification in_value in_subarray in_subvalues Hin o Ha Hm.
    destruct (subresources_of_table _ _ _ _ Hin)
      as (vo & ao & mo & Hv & Hsa & Hsv & Hform).
    exists vo, ao, mo. repeat split; auto.
  - intros o keyword Hmissing. unfold schema_at, elements_at, values_at.
    rewrite Hmissing. repeat split.
  - intros o keyword. unfold schema_at.
    destruct (dict_lookup keyword o); cbn; lia.
  - intros specification b Hin. now apply subresources_of_boolean.
  - unfold example_node. cbn [subresources_of DRAFT201909].
    rewrite _subresources_of_object.
    + rewrite flat_map_set_literal_nothing;
        [|distinct_strings|each_keyword].
      rewrite (flat_map_set_literal_single _ _ "allOf");
        [|distinct_strings|cbn; tauto|each_keyword].
      rewrite flat_map_set_literal_nothing;
        [|distinct_strings|each_keyword].
      reflexivity.
    + eapply forallb_permuted;
        [apply set_literal_elements; distinct_strings|reflexivity].
    + eapply forallb_permuted;
        [apply set_literal_elements; distinct_strings|reflexivity].
  - unfold example_node_defs. cbn [subresources_of DRAFT201909].
    rewrite _subresources_of_object.
    + rewrite flat_map_set_literal_nothing;
        [|distinct_strings|each_keyword].
      rewrite (flat_map_set_literal_single _ _ "allOf");
        [|distinct_strings|cbn; tauto|each_keyword].
      rewrite (flat_map_set_literal_single _ _ "$defs");
        [|distinct_strings|cbn; tauto|each_keyword].
      reflexivity.
    + eapply forallb_permuted;
        [apply set_literal_elements; distinct_strings|reflexivity].
    + eapply forallb_permuted;
        [apply set_literal_elements; distinct_strings|reflexivity].
  - unfold example_node. cbn [subresources_of DRAFT7].
    rewrite _subresources_of_object.
    + rewrite flat_map_set_literal_nothing;
        [|distinct_strings|each_keyword].
      rewrite (flat_map_set_literal_single _ _ "allOf");
        [|distinct_strings|cbn; tauto|each_keyword].
      rewrite (flat_map_set_literal_single _ _ "definitions");
        [|distinct_strings|cbn; tauto|each_keyword].
      reflexivity.
    + eapply forallb_permuted;
        [apply set_literal_elements; distinct_strings|reflexivity].
    + eapply forallb_permuted;
        [apply set_literal_elements; distinct_strings|reflexivity].
Qed.

(** ** Totality *)

Lemma subresources_of_well_typed specification (o : ObjectSchema) :
  In specification all_dialects ->
  keywords_well_typed o = true ->
  raised (subresources_of specification (SObject o)) = None.
Proof.
  intros Hin Htyped. unfold keywords_well_typed in Htyped.
  apply andb_prop in Htyped as [Htyped Hmappings].
  apply andb_prop in Htyped as [_ Harrays].
  destruct Hin as [<-|Hin]; [reflexivity|].
  repeat (destruct Hin as [<-|Hin];
    [ cbn [subresources_of DRAFT201909 DRAFT7 DRAFT6 DRAFT4 DRAFT3];
      rewrite _subresources_of_object;
      [ reflexivity
      | eapply forallb_permuted;
        [ apply set_literal_elements; distinct_strings
        | eapply forallb_subset; [|exact Harrays]; sublist ]
      | eapply forallb_permuted;
        [ apply set_literal_elements; distinct_strings
        | eapply forallb_subset; [|exact Hmappings]; sublist ] ]
    |]).
  destruct Hin.
Qed.

Lemma legacy_well_typed specification keyword (o : ObjectSchema) :
  In (specification, keyword) legacy_dialects ->
  keywords_well_typed o = true ->
  (exists v, id_of specification (SObject o) = Ok v)
  /\ (forall (S : Type) (self : S), exists anchors,
        anchors_in specification S self (SObject o) = Ok anchors).
Proof.
  intros Hin Htyped.
  assert (Hstring : match dict_lookup keyword o with
                    | Some (PStr _) | None => True
                    | _ => False
                    end).
  { unfold keywords_well_typed in Htyped.
    apply andb_prop in Htyped as [Htyped _].
    apply andb_prop in Htyped as [Hstrings _].
    unfold strings_under in Hstrings. rewrite forallb_forall in Hstrings.
    assert (Hkw : In keyword ["$id"; "id"]).
    { destruct Hin as [Heq|[Heq|[Heq|[Heq|[]]]]]; injection Heq as <- <-;
        cbn; tauto. }
    specialize (Hstrings keyword Hkw).
    destruct (dict_lookup keyword o) as [[]|]; trivial; discriminate. }
  split.
  - rewrite (legacy_id_of_unfold _ _ o Hin).
    destruct (dict_lookup "$ref" o); [eauto|].
    destruct (dict_lookup keyword o) as [[| | | |id| |]|];
      try contradiction; [|eauto].
    destruct (String.prefix "#" id); eauto.
  - intros S self. rewrite (legacy_anchors_in_unfold _ _ S self o Hin).
    destruct (dict_lookup keyword o) as [[| | | |id| |]|];
      try contradiction; [|eauto].
    destruct (String.prefix "#" id); eauto.
Qed.

(** C3, as the code has it: identifier extraction and anchor enumeration
    return nothing and the empty sequence on a boolean node for the 2020-12,
    2019-09, draft-07 and draft-06 dialects, and sub-schema enumeration
    yields nothing on a boolean node for all six; on an object node whose
    identifier keywords hold strings, whose array keywords hold arrays and
    whose mapping keywords hold mappings, the three functions of every
    dialect return without raising.  The draft-04 and draft-03 functions for
    identifiers and anchors are written for object nodes only. *)
Theorem extraction_total_where_defined :
  (forall specification b, In specification boolean_aware_dialects ->
     id_of specification (SBool b) = Ok PNone
     /\ forall (S : Type) (self : S),
          anchors_in specification S self (SBool b) = Ok [])
  /\ (forall specification b, In specification all_dialects ->
        subresources_of specification (SBool b) = Iteration [] None)
  /\ (forall specification o, In specification all_dialects ->
        keywords_well_typed o = true ->
        (exists v, id_of specification (SObject o) = Ok v)
        /\ (forall (S : Type) (self : S), exists anchors,
              anchors_in specification S self (SObject o) = Ok anchors)
        /\ raised (subresources_of specification (SObject o)) = None).
Proof.
  split; [|split].
  - intros specification b Hin.
    repeat (destruct Hin as [<-|Hin]; [split; reflexivity|]). destruct Hin.
  - intros specification b Hin. now apply subresources_of_boolean.
  - intros specification o Hin Htyped.
    pose proof (subresources_of_well_typed specification o Hin Htyped)
      as Hsub.
    destruct Hin as [<-|[<-|Hin]].
    + split; [|split]; [cbn; unfold _dollar_id; cbn; eauto| |exact Hsub].
      intros S self. cbn. eauto.
    + split; [|split]; [cbn; unfold _dollar_id; cbn; eauto| |exact Hsub].
      intros S self. cbn. unfold _anchor_2019. cbn.
      destruct (dict_lookup "$anchor" o) as [[]|]; cbn; eauto.
    + assert (Hlegacy : exists keyword,
                 In (specification, keyword) legacy_dialects).
      { destruct Hin as [<-|[<-|[<-|[<-|[]]]]];
          [exists "$id"|exists "$id"|exists "id"|exists "id"];
          cbn; tauto. }
      destruct Hlegacy as [keyword Hlegacy].
      destruct (legacy_well_typed _ _ o Hlegacy Htyped) as [Hid Hanchors].
      split; [|split]; assumption.
Qed.

(** ** Further properties of the lookup *)

Lemma Registry_get_in_catalog (uri : URI) :
  In uri catalog_keys -> Registry_get _SPECIFICATIONS uri <> None.
Proof.
  intros Hin.
  repeat (destruct Hin as [<-|Hin]; [discriminate|]). destruct Hin.
Qed.

(** The lookup raises in one situation only: the URI is not a catalog key
    and the default is [None], passed or left out; the exception is then
    [UnknownDialect] with the URI that was asked for.  With a specification
    as default no URI makes it raise. *)
Theorem specification_with_raises (uri : URI)
  (default : argument (option Specification)) (e : exn) :
  specification_with uri default = Raise e
  <-> e = UnknownDialect uri
      /\ ~ In uri catalog_keys
      /\ or_default default None = None.
Proof.
  unfold specification_with. split.
  - destruct (Registry_get _SPECIFICATIONS uri) as [resource|] eqn:Hget;
      [discriminate|].
    destruct (or_default default None); [discriminate|].
    intros Hraise. injection Hraise as <-. repeat split.
    intros Hin. exact (Registry_get_in_catalog uri Hin Hget).
  - intros (-> & Hout & ->).
    now rewrite (Registry_get_outside_catalog uri Hout).
Qed.

(** ** Further properties of the legacy identifiers and anchors *)

(** On an object node the legacy identifier extraction raises in one
    situation only: the node has no [$ref] and the identifier keyword holds
    a value that is neither [None] nor a string; the exception is
    [AttributeError].  A sibling [$ref] hides an ill-typed identifier. *)
Theorem legacy_id_of_raises specification keyword (o : ObjectSchema)
  (e : exn) :
  In (specification, keyword) legacy_dialects ->
  (id_of specification (SObject o) = Raise e
   <-> e = AttributeError
       /\ dict_lookup "$ref" o = None
       /\ exists v, dict_lookup keyword o = Some v
                    /\ is_None v = false /\ is_str v = false).
Proof.
  intros Hin. rewrite (legacy_id_of_unfold _ _ o Hin). split.
  - destruct (dict_lookup "$ref" o); [discriminate|].
    destruct (dict_lookup keyword o) as [v|]; [|discriminate].
    destruct v as [| | | |id| |]; try discriminate;
      try (intros Hraise; injection Hraise as <-;
           repeat split; eexists; repeat split).
    destruct (String.prefix "#" id); discriminate.
  - intros (-> & -> & v & -> & Hnone & Hstr).
    destruct v; try discriminate; reflexivity.
Qed.

(** On an object node the legacy anchor enumeration raises in one situation
    only: the keyword holds a value that is not a string, [None] included;
    the exception is [AttributeError].  A sibling [$ref] changes nothing. *)
Theorem legacy_anchors_in_raises specification keyword
  (S : Type) (self : S) (o : ObjectSchema) (e : exn) :
  In (specification, keyword) legacy_dialects ->
  (anchors_in specification S self (SObject o) = Raise e
   <-> e = AttributeError
       /\ exists v, dict_lookup keyword o = Some v /\ is_str v = false).
Proof.
  intros Hin. rewrite (legacy_anchors_in_unfold _ _ S self o Hin). split.
  - destruct (dict_lookup keyword o) as [v|]; [|discriminate].
    destruct v as [| | | |id| |]; try discriminate;
      try (intros Hraise; injection Hraise as <-;
           split; [reflexivity|]; eexists; split; reflexivity).
    destruct (String.prefix "#" id); discriminate.
  - intros (-> & v & -> & Hstr).
    destruct v; try discriminate; reflexivity.
Qed.

(** Whatever the legacy anchor enumeration returns on an object node is
    empty or a single anchor; a single anchor designates the node itself,
    and its name [rest] is read from the value ["#" ++ rest] of the
    keyword. *)
Theorem legacy_anchors_in_inversion specification keyword
  (S : Type) (self : S) (o : ObjectSchema) (anchors : list (Anchor.t S)) :
  In (specification, keyword) legacy_dialects ->
  anchors_in specification S self (SObject o) = Ok anchors ->
  anchors = []
  \/ exists rest,
       dict_lookup keyword o = Some (PStr ("#" ++ rest))
       /\ anchors = [Anchor.make (PStr rest)
                       (Resource.make (SObject o) self)].
Proof.
  intros Hin. rewrite (legacy_anchors_in_unfold _ _ S self o Hin).
  destruct (dict_lookup keyword o) as [v|].
  - destruct v as [| | | |id| |]; try discriminate.
    destruct (String.prefix "#" id) eqn:Hprefix.
    + apply starts_with_hash in Hprefix as [rest ->].
      intros Hok. injection Hok as <-. right. exists rest. split; reflexivity.
    + intros Hok. injection Hok as <-. now left.
  - intros Hok. injection Hok as <-. now left.
Qed.

(** In a legacy dialect the keyword never makes a node both identified and
    anchored: when the anchor enumeration finds an anchor the identifier
    extraction returns nothing, and when the identifier extraction returns
    a string the anchor enumeration is empty. *)
Theorem legacy_identifier_or_anchor specification keyword
  (S : Type) (self : S) (o : ObjectSchema) :
  In (specification, keyword) legacy_dialects ->
  (forall anchor others,
     anchors_in specification S self (SObject o) = Ok (anchor :: others) ->
     id_of specification (SObject o) = Ok PNone)
  /\ (forall id,
        id_of specification (SObject o) = Ok (PStr id) ->
        anchors_in specification S self (SObject o) = Ok []).
Proof.
  intros Hin.
  rewrite (legacy_anchors_in_unfold _ _ S self o Hin).
  rewrite (legacy_id_of_unfold _ _ o Hin).
  destruct (dict_lookup keyword o) as [v|].
  - destruct v as [| | | |value| |];
      try (split; intros; destruct (dict_lookup "$ref" o); discriminate).
    destruct (String.prefix "#" value);
      split; intros; destruct (dict_lookup "$ref" o);
      try reflexivity; discriminate.
  - split; intros; destruct (dict_lookup "$ref" o); try reflexivity;
      discriminate.
Qed.

(** ** Further properties of the modern identifiers and anchors *)

(** The 2020-12 and 2019-09 identifier extraction and the 2019-09 anchor
    enumeration raise on no node, whatever the types of the values it
    holds.  What the 2019-09 anchor enumeration returns is empty or a single
    anchor, which designates the node itself and is named by the value of
    [$anchor], a value that is not [None] but need not be a string. *)
Theorem modern_never_raise (contents : Schema) (S : Type) (self : S) :
  (forall specification, In specification modern_dialects ->
     exists v, id_of specification contents = Ok v)
  /\ exists anchors,
       anchors_in DRAFT201909 S self contents = Ok anchors
       /\ (anchors = []
           \/ exists o v,
                contents = SObject o
                /\ dict_lookup "$anchor" o = Some v
                /\ v <> PNone
                /\ anchors = [Anchor.make v (Resource.make contents self)]).
Proof.
  split.
  - intros specification [<-|[<-|[]]]; cbn; unfold _dollar_id;
      destruct contents; cbn; eauto.
  - cbn. unfold _anchor_2019. destruct contents as [b|o]; cbn.
    + eexists. split; [reflexivity|]. now left.
    + destruct (dict_lookup "$anchor" o) as [v|] eqn:Hanchor; cbn.
      * destruct v; cbn;
          try (eexists; split; [reflexivity|]; right; eexists _, _;
               repeat split; [exact Hanchor|discriminate]).
        eexists. split; [reflexivity|]. now left.
      * eexists. split; [reflexivity|]. now left.
Qed.

(** ** Further properties of the sub-schema enumeration *)

Lemma gen_for_ext {K A} (keys : list K) (body body' : K -> iteration A) :
  (forall k, In k keys -> body k = body' k) ->
  gen_for keys body = gen_for keys body'.
Proof.
  induction keys as [|k keys IH]; intros Hsame; [reflexivity|].
  cbn [gen_for]. rewrite (Hsame k (or_introl eq_refl)).
  rewrite IH by (intros k' Hk'; apply Hsame; now right).
  reflexivity.
Qed.

Lemma gen_seq_raised {A} (g1 g2 : iteration A) :
  raised (gen_seq g1 g2)
  = match raised g1 with Some e => Some e | None => raised g2 end.
Proof. unfold gen_seq. destruct (raised g1) eqn:E; [exact E|reflexivity]. Qed.

Lemma gen_for_raised_None {K A} (keys : list K) (body : K -> iteration A) :
  raised (gen_for keys body) = None
  <-> forall k, In k keys -> raised (body k) = None.
Proof.
  induction keys as [|k keys IH]; cbn [gen_for].
  - split; [intros _ k []|reflexivity].
  - rewrite gen_seq_raised. split.
    + intros Hnone k' [<-|Hk'].
      * destruct (raised (body k)); [discriminate|reflexivity].
      * destruct (raised (body k)); [discriminate|].
        now apply IH.
    + intros Hall. rewrite (Hall k (or_introl eq_refl)).
      apply IH. intros k' Hk'. apply Hall. now right.
Qed.

Lemma gen_for_raised_Some {K A} (keys : list K) (body : K -> iteration A)
  (e : exn) :
  raised (gen_for keys body) = Some e ->
  exists k, In k keys /\ raised (body k) = Some e.
Proof.
  induction keys as [|k keys IH]; cbn [gen_for]; [discriminate|].
  rewrite gen_seq_raised.
  destruct (raised (body k)) as [e'|] eqn:Hk.
  - intros Heq. injection Heq as <-. exists k. split; [now left|exact Hk].
  - intros Hrest. destruct (IH Hrest) as (k' & Hk' & Hraised).
    exists k'. split; [now right|exact Hraised].
Qed.

(** The first loop of the generator raises nothing: the schemas under the
    [in_value] keywords are yielded, then the two other loops run. *)
Lemma _subresources_of_values_first
  (in_value in_subvalues in_subarray : list string) (o : ObjectSchema) :
  _subresources_of in_value in_subvalues in_subarray (SObject o)
  = Iteration
      (flat_map (schema_at o) in_value
       ++ yielded (_subresources_of [] in_subvalues in_subarray (SObject o)))
      (raised (_subresources_of [] in_subvalues in_subarray (SObject o))).
Proof.
  unfold _subresources_of. cbn [isinstance_bool gen_for].
  rewrite (gen_for_pure in_value _ (schema_at o)).
  2:{ intros k _. unfold schema_at. cbn. now destruct (dict_lookup k o). }
  reflexivity.
Qed.

(** How the two other loops end. *)
Lemma _subresources_of_raised
  (in_value in_subvalues in_subarray : list string) (o : ObjectSchema) :
  (raised (_subresources_of in_value in_subvalues in_subarray (SObject o))
   = None
   <-> iterables_under o in_subarray = true
       /\ mappings_under o in_subvalues = true)
  /\ (forall e,
        raised (_subresources_of in_value in_subvalues in_subarray (SObject o))
        = Some e ->
        e = TypeError \/ e = AttributeError).
Proof.
  rewrite _subresources_of_values_first. cbn [raised].
  unfold _subresources_of. cbn [isinstance_bool gen_for].
  rewrite !gen_seq_raised. cbn [raised gen_return].
  unfold iterables_under, mappings_under. rewrite !forallb_forall.
  split; [split|].
  - intros Hnone.
    match type of Hnone with
    | match ?r with _ => _ end = None =>
        destruct r as [e|] eqn:Harrays; [discriminate|]
    end.
    rewrite gen_for_raised_None in Harrays, Hnone.
    split; intros k Hk;
      [specialize (Harrays k Hk)|specialize (Hnone k Hk)]; cbn in *;
      destruct (dict_lookup k o) as [[]|]; cbn in *;
      try reflexivity; discriminate.
  - intros [Harrays Hmappings].
    match goal with
    | |- match ?r with _ => _ end = None =>
        assert (Hfirst : r = None)
    end.
    { apply gen_for_raised_None. intros k Hk. specialize (Harrays k Hk).
      cbn. destruct (dict_lookup k o) as [[]|]; cbn in *;
        try reflexivity; discriminate. }
    rewrite Hfirst. apply gen_for_raised_None. intros k Hk.
    specialize (Hmappings k Hk).
    cbn. destruct (dict_lookup k o) as [[]|]; cbn in *;
      try reflexivity; discriminate.
  - intros e.
    match goal with
    | |- match ?r with _ => _ end = Some e -> _ =>
        destruct r as [e'|] eqn:Harrays
    end.
    + intros Heq. injection Heq as <-.
      apply gen_for_raised_Some in Harrays as (k & _ & Hk). cbn in Hk.
      destruct (dict_lookup k o) as [[]|]; cbn in Hk;
        try discriminate; injection Hk as <-; now left.
    + intros Hmappings.
      apply gen_for_raised_Some in Hmappings as (k & _ & Hk). cbn in Hk.
      destruct (dict_lookup k o) as [[]|]; cbn in Hk;
        try discriminate; injection Hk as <-; now right.
Qed.

(** The generator reads the node through the dialect's keywords only. *)
Lemma _subresources_of_frame
  (in_value in_subvalues in_subarray : list string) (o o' : ObjectSchema) :
  (forall k, In k (in_value ++ in_subarray ++ in_subvalues) ->
     dict_lookup k o = dict_lookup k o') ->
  _subresources_of in_value in_subvalues in_subarray (SObject o)
  = _subresources_of in_value in_subvalues in_subarray (SObject o').
Proof.
  intros Hsame. unfold _subresources_of. cbn [isinstance_bool].
  f_equal; [|f_equal]; apply gen_for_ext; intros k Hk;
    unfold py_in, py_getitem; rewrite (Hsame k); try reflexivity;
    rewrite !in_app_iff; tauto.
Qed.

(** Each dialect runs the generator on its keyword sets of the table, in the
    order the sets are iterated in. *)
Lemma subresources_of_generator specification in_value in_subarray
  in_subvalues :
  In (specification, (in_value, in_subarray, in_subvalues)) keyword_table ->
  exists value_order subarray_order subvalues_order,
    Permutation value_order in_value
    /\ Permutation subarray_order in_subarray
    /\ Permutation subvalues_order in_subvalues
    /\ forall o,
         subresources_of specification (SObject o)
         = _subresources_of value_order subvalues_order subarray_order
             (SObject o).
Proof.
  intros Hin.
  destruct Hin as [Heq|Hin].
  { injection Heq as <- <- <- <-. exists [], [], [].
    repeat split; apply perm_nil. }
  repeat (destruct Hin as [Heq|Hin];
    [ injection Heq as <- <- <- <-;
      eexists _, _, _;
      split; [apply set_literal_elements; distinct_strings|];
      split; [apply set_literal_elements; distinct_strings|];
      split; [apply set_literal_elements; distinct_strings|];
      intros o; reflexivity
    |]).
  destruct Hin.
Qed.

Lemma forallb_permutation {A} (test : A -> bool) (l l' : list A) :
  Permutation l' l -> forallb test l' = forallb test l.
Proof.
  intros Hperm.
  destruct (forallb test l) eqn:Hl.
  - exact (forallb_permuted test l l' Hperm Hl).
  - destruct (forallb test l') eqn:Hl'; [|reflexivity].
    rewrite <- Hl. symmetry.
    exact (forallb_permuted test l' l (Permutation_sym Hperm) Hl').
Qed.

(** Whatever an object node holds, the enumeration of every dialect begins
    with the schemas under the [in_value] keywords, each keyword visited
    once; if the iteration then ends with an exception, the exception is
    [TypeError] or [AttributeError], never [KeyError]. *)
Theorem subresources_of_values_first specification in_value in_subarray
  in_subvalues (o : ObjectSchema) :
  In (specification, (in_value, in_subarray, in_subvalues)) keyword_table ->
  (exists (value_order : list string) (rest : list Any),
     Permutation value_order in_value
     /\ yielded (subresources_of specification (SObject o))
        = (flat_map (schema_at o) value_order ++ rest)%list)
  /\ (forall e,
        raised (subresources_of specification (SObject o)) = Some e ->
        e = TypeError \/ e = AttributeError).
Proof.
  intros Hin.
  destruct (subresources_of_generator _ _ _ _ Hin)
    as (vo & ao & mo & Hv & _ & _ & Hgen).
  rewrite Hgen. split.
  - rewrite _subresources_of_values_first. cbn [yielded].
    exists vo. eexists. split; [exact Hv|reflexivity].
  - exact (proj2 (_subresources_of_raised vo mo ao o)).
Qed.

(** The enumeration of an object node runs to its end without an exception
    exactly when every [in_subarray] keyword of the dialect that the node
    has holds a list, a dictionary or a string, and every [in_subvalues]
    keyword that the node has holds a dictionary. *)
Theorem subresources_of_completes specification in_value in_subarray
  in_subvalues (o : ObjectSchema) :
  In (specification, (in_value, in_subarray, in_subvalues)) keyword_table ->
  (raised (subresources_of specification (SObject o)) = None
   <-> iterables_under o in_subarray = true
       /\ mappings_under o in_subvalues = true).
Proof.
  intros Hin.
  destruct (subresources_of_generator _ _ _ _ Hin)
    as (vo & ao & mo & _ & Ha & Hm & Hgen).
  rewrite Hgen. rewrite (proj1 (_subresources_of_raised vo mo ao o)).
  unfold iterables_under, mappings_under.
  rewrite (forallb_permutation _ _ _ Ha), (forallb_permutation _ _ _ Hm).
  reflexivity.
Qed.

(** The enumeration reads an object node through the keywords of the dialect
    only: two nodes which hold the same values under those keywords
    enumerate alike, whatever else they hold. *)
Theorem subresources_of_frame specification in_value in_subarray
  in_subvalues (o o' : ObjectSchema) :
  In (specification, (in_value, in_subarray, in_subvalues)) keyword_table ->
  (forall k, In k (in_value ++ in_subarray ++ in_subvalues) ->
     dict_lookup k o = dict_lookup k o') ->
  subresources_of specification (SObject o)
  = subresources_of specification (SObject o').
Proof.
  intros Hin Hsame.
  destruct (subresources_of_generator _ _ _ _ Hin)
    as (vo & ao & mo & Hv & Ha & Hm & Hgen).
  rewrite !Hgen. apply _subresources_of_frame.
  intros k Hk. apply Hsame. rewrite !in_app_iff in *.
  destruct Hk as [Hk|[Hk|Hk]];
    [ left; exact (Permutation_in k Hv Hk)
    | right; left; exact (Permutation_in k Ha Hk)
    | right; right; exact (Permutation_in k Hm Hk) ].
Qed.

(** Draft-04 and draft-06 enumerate every node alike.  Draft-07 ends the
    enumeration of a node as draft-06 does, with the same exception if
    any, and yields every sub-schema that draft-06 yields. *)
Theorem draft6_within_draft7 (contents : Schema) :
  subresources_of DRAFT4 contents = subresources_of DRAFT6 contents
  /\ raised (subresources_of DRAFT6 contents)
     = raised (subresources_of DRAFT7 contents)
  /\ incl (yielded (subresources_of DRAFT6 contents))
          (yielded (subresources_of DRAFT7 contents)).
Proof.
  split; [reflexivity|].
  destruct contents as [b|o].
  { split; [reflexivity|]. intros x Hx. exact Hx. }
  cbn [subresources_of DRAFT6 DRAFT7].
  rewrite (_subresources_of_values_first
             (set_literal ["additionalProperties"; "not"])).
  rewrite (_subresources_of_values_first
             (set_literal ["additionalProperties"; "if"; "then"; "else";
                           "not"])).
  cbn [yielded raised]. split; [reflexivity|].
  apply incl_app; [apply incl_appl|apply incl_appr, incl_refl].
  intros x Hx. apply in_flat_map in Hx as (k & Hk & Hx).
  apply in_flat_map. exists k. split; [|exact Hx].
  assert (Hsix : Permutation (set_literal ["additionalProperties"; "not"])
                   ["additionalProperties"; "not"])
    by (apply set_literal_elements; distinct_strings).
  assert (Hseven : Permutation
                     (set_literal ["additionalProperties"; "if"; "then";
                                   "else"; "not"])
                     ["additionalProperties"; "if"; "then"; "else"; "not"])
    by (apply set_literal_elements; distinct_strings).
  pose proof (Permutation_in k Hsix Hk) as Hliteral.
  apply (Permutation_in k (Permutation_sym Hseven)).
  cbn in Hliteral |- *. tauto.
Qed.

(** The enumeration of draft-04 and of draft-03 hands back a boolean found
    under [additionalProperties] as a sub-schema, whatever else the node
    holds; on that boolean node the identifier extraction of the same
    dialect raises [TypeError] and its anchor enumeration raises
    [AttributeError]. *)
Theorem object_only_dialects_boolean_subschema specification
  (o : ObjectSchema) (b : bool) :
  In specification object_only_dialects ->
  dict_lookup "additionalProperties" o = Some (PBool b) ->
  (exists v,
     In v (yielded (subresources_of specification (SObject o)))
     /\ as_schema v = Some (SBool b))
  /\ id_of specification (SBool b) = Raise TypeError
  /\ (forall (S : Type) (self : S),
        anchors_in specification S self (SBool b) = Raise AttributeError).
Proof.
  intros Hin Hvalue.
  destruct Hin as [<-|[<-|[]]];
    (split; [|split; reflexivity]);
    exists (PBool b); (split; [|reflexivity]);
    cbn [subresources_of DRAFT4 DRAFT3];
    rewrite _subresources_of_values_first; cbn [yielded];
    apply in_or_app; left; apply in_flat_map;
    exists "additionalProperties";
    (split; [|unfold schema_at; rewrite Hvalue; now left]).
  - assert (Hset : Permutation (set_literal ["additionalProperties"; "not"])
                     ["additionalProperties"; "not"])
      by (apply set_literal_elements; distinct_strings).
    apply (Permutation_in "additionalProperties" (Permutation_sym Hset)).
    cbn. tauto.
  - assert (Hset : Permutation (set_literal ["additionalProperties"])
                     ["additionalProperties"])
      by (apply set_literal_elements; distinct_strings).
    apply (Permutation_in "additionalProperties" (Permutation_sym Hset)).
    cbn. tauto.
Qed.

End Dialects.

(** ** Concrete instances *)

Lemma literal_order_elements (l : list string) :
  NoDup l -> Permutation (literal_order l) l.
Proof. intros _. apply Permutation_refl. Qed.

Lemma specification_with_unknown_witness :
  ~ In "unknown-uri" catalog_keys
  /\ specification_with literal_order "unknown-uri" Omitted
     = Raise (UnknownDialect "unknown-uri")
  /\ specification_with literal_order "unknown-uri"
       (Passed (Some DRAFT202012))
     = Ok (Some DRAFT202012).
Proof.
  assert (Hout : ~ In "unknown-uri" catalog_keys)
    by (cbn; intuition discriminate).
  split; [exact Hout|].
  exact (specification_with_unknown literal_order "unknown-uri"
           DRAFT202012 Hout).
Defined.

Lemma specification_with_catalog_witness :
  In ("http://json-schema.org/draft-04/schema#", "draft-04") catalog_labels
  /\ exists specification,
       specification_with literal_order
         "http://json-schema.org/draft-04/schema#" Omitted
       = Ok (Some specification)
       /\ name specification = "draft-04".
Proof.
  assert (Hin : In ("http://json-schema.org/draft-04/schema#", "draft-04")
                  catalog_labels) by (cbn; tauto).
  split; [exact Hin|].
  exact (proj1 (specification_with_catalog literal_order) _ _ Hin Omitted).
Defined.

Lemma specification_with_default_None_witness :
  ~ In "unknown-uri" catalog_keys
  /\ specification_with literal_order "unknown-uri" (Passed None)
     = specification_with literal_order "unknown-uri" Omitted
  /\ specification_with literal_order "unknown-uri" (Passed None)
     = Raise (UnknownDialect "unknown-uri").
Proof.
  assert (Hout : ~ In "unknown-uri" catalog_keys)
    by (cbn; intuition discriminate).
  split; [exact Hout|].
  exact (proj1 (specification_with_default_None literal_order)
           "unknown-uri" Hout).
Defined.

Lemma modern_id_of_witness :
  In (DRAFT201909 literal_order) (modern_dialects literal_order)
  /\ dict_lookup "$id" [("$ref", PStr "#/foo"); ("$id", PStr "#frag")]
     = Some (PStr "#frag")
  /\ id_of (DRAFT201909 literal_order)
       (SObject [("$ref", PStr "#/foo"); ("$id", PStr "#frag")])
     = Ok (PStr "#frag").
Proof.
  assert (Hin : In (DRAFT201909 literal_order)
                  (modern_dialects literal_order)) by (cbn; tauto).
  split; [exact Hin|]. split; [reflexivity|].
  apply (proj1 (modern_id_of literal_order _ Hin)). reflexivity.
Defined.

Lemma legacy_id_of_witness :
  In (DRAFT7 literal_order, "$id") (legacy_dialects literal_order)
  /\ dict_lookup "$id" [("$id", PStr "http://x/a")]
     = Some (PStr "http://x/a")
  /\ dict_lookup "$ref" [("$id", PStr "http://x/a")] = None
  /\ String.prefix "#" "http://x/a" = false
  /\ id_of (DRAFT7 literal_order) (SObject [("$id", PStr "http://x/a")])
     = Ok (PStr "http://x/a").
Proof.
  assert (Hin : In (DRAFT7 literal_order, "$id")
                  (legacy_dialects literal_order)) by (cbn; tauto).
  split; [exact Hin|]. repeat (split; [reflexivity|]).
  apply (proj1 (legacy_id_of literal_order _ _
                  [("$id", PStr "http://x/a")] Hin)); reflexivity.
Defined.

Lemma legacy_anchors_in_witness :
  In (DRAFT4 literal_order, "id") (legacy_dialects literal_order)
  /\ dict_lookup "id" [("id", PStr "#bar")] = Some (PStr ("#" ++ "bar"))
  /\ anchors_in (DRAFT4 literal_order) unit tt (SObject [("id", PStr "#bar")])
     = Ok [Anchor.make (PStr "bar")
             (Resource.make (SObject [("id", PStr "#bar")]) tt)].
Proof.
  assert (Hin : In (DRAFT4 literal_order, "id")
                  (legacy_dialects literal_order)) by (cbn; tauto).
  split; [exact Hin|]. split; [reflexivity|].
  apply (proj1 (legacy_anchors_in literal_order _ _ unit tt
                  [("id", PStr "#bar")] Hin)); reflexivity.
Defined.

Lemma anchor_2019_anchors_in_witness :
  dict_lookup "$anchor" [("$anchor", PStr "foo")] = Some (PStr "foo")
  /\ PStr "foo" <> PNone
  /\ anchors_in (DRAFT201909 literal_order) unit tt
       (SObject [("$anchor", PStr "foo")])
     = Ok [Anchor.make (PStr "foo")
             (Resource.make (SObject [("$anchor", PStr "foo")]) tt)].
Proof.
  assert (Hvalue : PStr "foo" <> PNone) by discriminate.
  split; [reflexivity|]. split; [exact Hvalue|].
  apply (proj1 (anchor_2019_anchors_in literal_order unit tt
                  [("$anchor", PStr "foo")])); [reflexivity|exact Hvalue].
Defined.

(** C2 as stated fails: an empty [$anchor] does yield an anchor. *)
Lemma anchor_2019_empty_string_counterexample :
  anchors_in (DRAFT201909 literal_order) unit tt
    (SObject [("$anchor", PStr "")])
  = Ok [Anchor.make (PStr "")
          (Resource.make (SObject [("$anchor", PStr "")]) tt)]
  /\ anchors_in (DRAFT201909 literal_order) unit tt
       (SObject [("$anchor", PStr "")])
     <> Ok [].
Proof. split; [reflexivity|discriminate]. Qed.

(** C3 as stated fails: on a boolean node the draft-04 functions raise. *)
Lemma legacy_boolean_counterexample :
  id_of (DRAFT4 literal_order) (SBool true) = Raise TypeError
  /\ id_of (DRAFT4 literal_order) (SBool true) <> Ok PNone
  /\ anchors_in (DRAFT4 literal_order) unit tt (SBool true)
     = Raise AttributeError
  /\ anchors_in (DRAFT4 literal_order) unit tt (SBool true) <> Ok [].
Proof. repeat split; try reflexivity; discriminate. Qed.

(** C5 as stated fails: the 2019-09 dialect does not look under
    [definitions]. *)
Lemma definitions_2019_counterexample :
  subresources_of (DRAFT201909 literal_order) example_node
  = Iteration [PDict [("a", PInt 1)]; PDict [("b", PInt 2)]] None
  /\ yielded (subresources_of (DRAFT201909 literal_order) example_node)
     <> [PDict [("a", PInt 1)]; PDict [("b", PInt 2)]; PDict [("c", PInt 3)]].
Proof. split; [reflexivity|discriminate]. Qed.

Lemma subresources_of_order_witness :
  (forall l, NoDup l -> Permutation (literal_order l) l)
  /\ In (DRAFT3 literal_order,
         (["additionalProperties"], ["extends"],
          ["definitions"; "properties"]))
       (keyword_table literal_order)
  /\ arrays_under draft3_node ["extends"] = true
  /\ mappings_under draft3_node ["definitions"; "properties"] = true
  /\ exists value_order subarray_order subvalues_order,
       Permutation value_order ["additionalProperties"]
       /\ Permutation subarray_order ["extends"]
       /\ Permutation subvalues_order ["definitions"; "properties"]
       /\ subresources_of (DRAFT3 literal_order) (SObject draft3_node)
          = Iteration (flat_map (schema_at draft3_node) value_order
                       ++ flat_map (elements_at draft3_node) subarray_order
                       ++ flat_map (values_at draft3_node) subvalues_order)
              None.
Proof.
  assert (Hin : In (DRAFT3 literal_order,
                    (["additionalProperties"], ["extends"],
                     ["definitions"; "properties"]))
                  (keyword_table literal_order)) by (cbn; tauto).
  split; [exact literal_order_elements|]. split; [exact Hin|].
  split; [reflexivity|]. split; [reflexivity|].
  apply (proj1 (subresources_of_order literal_order literal_order_elements)
           _ _ _ _ Hin draft3_node); reflexivity.
Defined.

Lemma extraction_total_where_defined_witness :
  (forall l, NoDup l -> Permutation (literal_order l) l)
  /\ In (DRAFT7 literal_order) (all_dialects literal_order)
  /\ keywords_well_typed draft7_node = true
  /\ (exists v, id_of (DRAFT7 literal_order) (SObject draft7_node) = Ok v)
  /\ (forall (S : Type) (self : S), exists anchors,
        anchors_in (DRAFT7 literal_order) S self (SObject draft7_node)
        = Ok anchors)
  /\ raised (subresources_of (DRAFT7 literal_order) (SObject draft7_node))
     = None.
Proof.
  assert (Hin : In (DRAFT7 literal_order) (all_dialects literal_order))
    by (cbn; tauto).
  split; [exact literal_order_elements|]. split; [exact Hin|].
  split; [reflexivity|].
  exact (proj2 (proj2 (extraction_total_where_defined literal_order
                         literal_order_elements))
           _ draft7_node Hin eq_refl).
Defined.

(** ** Where the extraction functions raise

    The functions do not validate the node: a keyword holding a value of
    another JSON type than the dialect expects makes them raise. *)

Example legacy_id_of_number :
  id_of (DRAFT7 literal_order) (SObject [("$id", PInt 5)])
  = Raise AttributeError.
Proof. reflexivity. Qed.

Example legacy_anchors_in_null :
  id_of (DRAFT7 literal_order) (SObject [("$id", PNone)]) = Ok PNone
  /\ anchors_in (DRAFT7 literal_order) unit tt (SObject [("$id", PNone)])
     = Raise AttributeError.
Proof. split; reflexivity. Qed.

(** The generator has yielded the schema under [not] when it reaches the
    number under [allOf]. *)
Example subresources_of_number :
  subresources_of (DRAFT7 literal_order)
    (SObject [("allOf", PInt 5); ("not", PDict [("a", PInt 1)])])
  = Iteration [PDict [("a", PInt 1)]] (Some TypeError).
Proof. reflexivity. Qed.

Example subresources_of_array_of_properties :
  subresources_of (DRAFT7 literal_order) (SObject [("properties", PList [])])
  = Iteration [] (Some AttributeError).
Proof. reflexivity. Qed.

(** ** Concrete instances of the further properties *)

Lemma specification_with_raises_witness :
  ~ In "unknown-uri" catalog_keys
  /\ or_default (Passed (@None Specification)) None = None
  /\ specification_with literal_order "unknown-uri" (Passed None)
     = Raise (UnknownDialect "unknown-uri").
Proof.
  assert (Hout : ~ In "unknown-uri" catalog_keys)
    by (cbn; intuition discriminate).
  split; [exact Hout|]. split; [reflexivity|].
  apply (proj2 (specification_with_raises literal_order "unknown-uri"
                  (Passed None) (UnknownDialect "unknown-uri"))).
  repeat split. exact Hout.
Defined.

Lemma legacy_id_of_raises_witness :
  In (DRAFT7 literal_order, "$id") (legacy_dialects literal_order)
  /\ dict_lookup "$ref" [("$id", PInt 5)] = None
  /\ dict_lookup "$id" [("$id", PInt 5)] = Some (PInt 5)
  /\ id_of (DRAFT7 literal_order) (SObject [("$id", PInt 5)])
     = Raise AttributeError.
Proof.
  assert (Hin : In (DRAFT7 literal_order, "$id")
                  (legacy_dialects literal_order)) by (cbn; tauto).
  split; [exact Hin|]. split; [reflexivity|]. split; [reflexivity|].
  apply (proj2 (legacy_id_of_raises literal_order _ _ [("$id", PInt 5)]
                  AttributeError Hin)).
  split; [reflexivity|]. split; [reflexivity|].
  exists (PInt 5). repeat split.
Defined.

Lemma legacy_anchors_in_raises_witness :
  In (DRAFT7 literal_order, "$id") (legacy_dialects literal_order)
  /\ dict_lookup "$id" [("$ref", PStr "#/a"); ("$id", PNone)] = Some PNone
  /\ anchors_in (DRAFT7 literal_order) unit tt
       (SObject [("$ref", PStr "#/a"); ("$id", PNone)])
     = Raise AttributeError.
Proof.
  assert (Hin : In (DRAFT7 literal_order, "$id")
                  (legacy_dialects literal_order)) by (cbn; tauto).
  split; [exact Hin|]. split; [reflexivity|].
  apply (proj2 (legacy_anchors_in_raises literal_order _ _ unit tt
                  [("$ref", PStr "#/a"); ("$id", PNone)]
                  AttributeError Hin)).
  split; [reflexivity|]. exists PNone. split; reflexivity.
Defined.

Lemma legacy_anchors_in_inversion_witness :
  In (DRAFT4 literal_order, "id") (legacy_dialects literal_order)
  /\ anchors_in (DRAFT4 literal_order) unit tt (SObject [("id", PStr "#bar")])
     = Ok [Anchor.make (PStr "bar")
             (Resource.make (SObject [("id", PStr "#bar")]) tt)]
  /\ ([Anchor.make (PStr "bar")
         (Resource.make (SObject [("id", PStr "#bar")]) tt)] = []
      \/ exists rest,
           dict_lookup "id" [("id", PStr "#bar")] = Some (PStr ("#" ++ rest))
           /\ [Anchor.make (PStr "bar")
                 (Resource.make (SObject [("id", PStr "#bar")]) tt)]
              = [Anchor.make (PStr rest)
                   (Resource.make (SObject [("id", PStr "#bar")]) tt)]).
Proof.
  assert (Hin : In (DRAFT4 literal_order, "id")
                  (legacy_dialects literal_order)) by (cbn; tauto).
  split; [exact Hin|]. split; [reflexivity|].
  exact (legacy_anchors_in_inversion literal_order _ _ unit tt
           [("id", PStr "#bar")] _ Hin eq_refl).
Defined.

Lemma legacy_identifier_or_anchor_witness :
  In (DRAFT6 literal_order, "$id") (legacy_dialects literal_order)
  /\ anchors_in (DRAFT6 literal_order) unit tt (SObject [("$id", PStr "#a")])
     = Ok [Anchor.make (PStr "a")
             (Resource.make (SObject [("$id", PStr "#a")]) tt)]
  /\ id_of (DRAFT6 literal_order) (SObject [("$id", PStr "#a")]) = Ok PNone.
Proof.
  assert (Hin : In (DRAFT6 literal_order, "$id")
                  (legacy_dialects literal_order)) by (cbn; tauto).
  split; [exact Hin|]. split; [reflexivity|].
  exact (proj1 (legacy_identifier_or_anchor literal_order _ _ unit tt
                  [("$id", PStr "#a")] Hin) _ _ eq_refl).
Defined.

Lemma modern_never_raise_witness :
  In (DRAFT201909 literal_order) (modern_dialects literal_order)
  /\ exists v,
       id_of (DRAFT201909 literal_order)
         (SObject [("$id", PInt 5); ("$anchor", PInt 7)])
       = Ok v.
Proof.
  assert (Hin : In (DRAFT201909 literal_order)
                  (modern_dialects literal_order)) by (cbn; tauto).
  split; [exact Hin|].
  exact (proj1 (modern_never_raise literal_order
                  (SObject [("$id", PInt 5); ("$anchor", PInt 7)]) unit tt)
           _ Hin).
Defined.

Lemma subresources_of_values_first_witness :
  (forall l, NoDup l -> Permutation (literal_order l) l)
  /\ In (DRAFT7 literal_order,
         (["additionalProperties"; "if"; "then"; "else"; "not"],
          ["allOf"; "anyOf"; "oneOf"],
          ["definitions"; "properties"]))
       (keyword_table literal_order)
  /\ raised (subresources_of (DRAFT7 literal_order) (SObject ill_typed_node))
     = Some TypeError
  /\ (TypeError = TypeError \/ TypeError = AttributeError).
Proof.
  assert (Hin : In (DRAFT7 literal_order,
                    (["additionalProperties"; "if"; "then"; "else"; "not"],
                     ["allOf"; "anyOf"; "oneOf"],
                     ["definitions"; "properties"]))
                  (keyword_table literal_order)) by (cbn; tauto).
  split; [exact literal_order_elements|]. split; [exact Hin|].
  split; [reflexivity|].
  exact (proj2 (subresources_of_values_first literal_order
                  literal_order_elements _ _ _ _ ill_typed_node Hin)
           TypeError eq_refl).
Defined.

Lemma subresources_of_completes_witness :
  (forall l, NoDup l -> Permutation (literal_order l) l)
  /\ In (DRAFT7 literal_order,
         (["additionalProperties"; "if"; "then"; "else"; "not"],
          ["allOf"; "anyOf"; "oneOf"],
          ["definitions"; "properties"]))
       (keyword_table literal_order)
  /\ iterables_under draft7_node ["allOf"; "anyOf"; "oneOf"] = true
  /\ mappings_under draft7_node ["definitions"; "properties"] = true
  /\ raised (subresources_of (DRAFT7 literal_order) (SObject draft7_node))
     = None.
Proof.
  assert (Hin : In (DRAFT7 literal_order,
                    (["additionalProperties"; "if"; "then"; "else"; "not"],
                     ["allOf"; "anyOf"; "oneOf"],
                     ["definitions"; "properties"]))
                  (keyword_table literal_order)) by (cbn; tauto).
  split; [exact literal_order_elements|]. split; [exact Hin|].
  split; [reflexivity|]. split; [reflexivity|].
  apply (proj2 (subresources_of_completes literal_order
                  literal_order_elements _ _ _ _ draft7_node Hin)).
  split; reflexivity.
Defined.

Lemma subresources_of_frame_witness :
  (forall l, NoDup l -> Permutation (literal_order l) l)
  /\ In (DRAFT6 literal_order,
         (["additionalProperties"; "not"],
          ["allOf"; "anyOf"; "oneOf"],
          ["definitions"; "properties"]))
       (keyword_table literal_order)
  /\ (forall k,
        In k (["additionalProperties"; "not"]
              ++ ["allOf"; "anyOf"; "oneOf"]
              ++ ["definitions"; "properties"])%list ->
        dict_lookup k conditional_node = dict_lookup k negation_node)
  /\ subresources_of (DRAFT6 literal_order) (SObject conditional_node)
     = subresources_of (DRAFT6 literal_order) (SObject negation_node).
Proof.
  assert (Hin : In (DRAFT6 literal_order,
                    (["additionalProperties"; "not"],
                     ["allOf"; "anyOf"; "oneOf"],
                     ["definitions"; "properties"]))
                  (keyword_table literal_order)) by (cbn; tauto).
  assert (Hsame : forall k,
             In k (["additionalProperties"; "not"]
                   ++ ["allOf"; "anyOf"; "oneOf"]
                   ++ ["definitions"; "properties"])%list ->
             dict_lookup k conditional_node = dict_lookup k negation_node).
  { intros k Hk. cbn in Hk.
    repeat (destruct Hk as [<-|Hk]; [reflexivity|]). destruct Hk. }
  split; [exact literal_order_elements|]. split; [exact Hin|].
  split; [exact Hsame|].
  exact (subresources_of_frame literal_order literal_order_elements
           _ _ _ _ conditional_node negation_node Hin Hsame).
Defined.

Lemma draft6_within_draft7_witness :
  (forall l, NoDup l -> Permutation (literal_order l) l)
  /\ raised (subresources_of (DRAFT6 literal_order) (SObject ill_typed_node))
     = raised (subresources_of (DRAFT7 literal_order) (SObject ill_typed_node))
  /\ incl
       (yielded (subresources_of (DRAFT6 literal_order)
                   (SObject conditional_node)))
       (yielded (subresources_of (DRAFT7 literal_order)
                   (SObject conditional_node))).
Proof.
  split; [exact literal_order_elements|]. split.
  - exact (proj1 (proj2 (draft6_within_draft7 literal_order
                           literal_order_elements (SObject ill_typed_node)))).
  - exact (proj2 (proj2 (draft6_within_draft7 literal_order
                           literal_order_elements
                           (SObject conditional_node)))).
Defined.

Lemma object_only_dialects_boolean_subschema_witness :
  (forall l, NoDup l -> Permutation (literal_order l) l)
  /\ In (DRAFT4 literal_order) (object_only_dialects literal_order)
  /\ dict_lookup "additionalProperties" closed_node = Some (PBool false)
  /\ (exists v,
        In v (yielded (subresources_of (DRAFT4 literal_order)
                         (SObject closed_node)))
        /\ as_schema v = Some (SBool false))
  /\ id_of (DRAFT4 literal_order) (SBool false) = Raise TypeError.
Proof.
  assert (Hin : In (DRAFT4 literal_order)
                  (object_only_dialects literal_order)) by (cbn; tauto).
  split; [exact literal_order_elements|]. split; [exact Hin|].
  split; [reflexivity|].
  destruct (object_only_dialects_boolean_subschema literal_order
              literal_order_elements _ closed_node false Hin eq_refl)
    as (Hyielded & Hid & _).
  split; [exact Hyielded|exact Hid].
Defined.
